(** * The authentication router [app/auth/router.py]

    A shallow embedding of the seven route handlers of the router and of
    the state they thread: the database session handed to the DAOs, the
    response whose cookies the handlers set and delete, and the exceptions
    they raise.  The DAOs, the password check and the token dependencies
    live in modules outside the router; the DAOs and the password check are
    taken as an interface, the token machinery is modelled from the
    repository's specification. *)

From Stdlib Require Import ZArith String List.
From stdpp Require Import gmap strings list fin_maps.

Local Open Scope string_scope.
Local Open Scope Z_scope.
Local Open Scope list_scope.

(** ** Data *)

(** [app.auth.schemas.RoleAddModel]: the router reads and writes its one
    field [name]; [model_dump] gives the dictionary of the fields and
    building the model from a dictionary of keyword arguments is
    [from_dict]. *)
Module RoleAddModel.
Record t := mk { name : string }.

Definition model_dump (r : t) : gmap string string :=
    {[ "name" := name r ]}.

Definition from_dict (d : gmap string string) : option t :=
    match d !! "name" with
    | Some n => Some (mk n)
    | None => None
    end.
End RoleAddModel.

Module Role.
Record t := mk { name : string }.
End Role.

(** [app.auth.models.User], with the fields the specification lists. *)
Module User.
Record t := mk {
    id : Z;
    email : string;
    phone_number : string;
    password : string;
    roles : list Role.t
  }.
End User.

(** [SUserAuth]: the login form. *)
Module SUserAuth.
Record t := mk { email : string; password : string }.
End SUserAuth.

(** [SUserRegister]: the registration form.  The router names the fields
    [email], [phone_number] and [confirm_password]; the remaining profile
    fields are kept as a dictionary.  [model_dump] is the dictionary of all
    the fields. *)
Module SUserRegister.
Record t := mk {
    email : string;
    phone_number : string;
    password : string;
    confirm_password : string;
    profile : gmap string string
  }.

Definition model_dump (u : t) : gmap string string :=
    <[ "email" := email u ]>
      (<[ "phone_number" := phone_number u ]>
         (<[ "password" := password u ]>
            (<[ "confirm_password" := confirm_password u ]> (profile u)))).
End SUserRegister.

(** [SUserAddDB], built from the keyword dictionary [user_data_dict]: the
    record handed to [UsersDAO.add]. *)
Module SUserAddDB.
Record t := mk { fields : gmap string string }.
End SUserAddDB.

(** The filters given to [UsersDAO.find_one_or_none]. *)
Inductive UserFilter :=
| EmailModel (email : string)
| PhoneModel (phone_number : string).

(** Exceptions.  The first three are named by the router; [ValidationError]
    is what building a model from a dictionary without its field raises. *)
Inductive exn :=
| UserAlreadyExistsException
| IncorrectEmailOrPasswordException
| IntegrityError
| ValidationError
| Unauthorized
| Forbidden.

(** The JSON bodies the handlers return. *)
Inductive json :=
| JStr (s : string)
| JBool (b : bool).

Definition Body := list (string * json).

(** ** Tokens and cookies *)

Record Token := {
  tok_user_id : Z;
  tok_expiry : Z;
  tok_signature : Z
}.

(** What a handler does to the cookies of the response, in order. *)
Inductive CookieOp :=
| set_cookie (key : string) (value : Token)
| delete_cookie_op (key : string).

Definition apply_cookie_op (jar : gmap string Token) (op : CookieOp)
  : gmap string Token :=
  match op with
  | set_cookie k v => <[ k := v ]> jar
  | delete_cookie_op k => delete k jar
  end.

(** The cookies a client holds after it has received a response. *)
Definition client_cookies (jar : gmap string Token) (resp : list CookieOp)
  : gmap string Token :=
  fold_left apply_cookie_op resp jar.

(** ** The world a handler runs in *)

(** The calls a handler makes on the DAOs, in order. *)
Inductive Call :=
| UsersDAO_find_one_or_none (filters : UserFilter)
| UsersDAO_find_by_id (uid : Z)
| UsersDAO_add (values : SUserAddDB.t)
| UsersDAO_find_all
| RoleDAO_find_one_or_none (filters : RoleAddModel.t)
| RoleDAO_add (values : RoleAddModel.t).

(** [session] is the database as the request's session sees it, [response]
    the cookie operations recorded on the response so far, [now] the time
    of the request and [calls] the DAO calls made so far. *)
Record World (S : Type) := mkWorld {
  session : S;
  response : list CookieOp;
  now : Z;
  calls : list Call
}.
Arguments mkWorld {S} _ _ _ _.
Arguments session {S} _.
Arguments response {S} _.
Arguments now {S} _.
Arguments calls {S} _.

Definition with_session {S} (s : S) (w : World S) : World S :=
  mkWorld s (response w) (now w) (calls w).

Definition with_response {S} (r : list CookieOp) (w : World S) : World S :=
  mkWorld (session w) r (now w) (calls w).

Definition with_calls {S} (c : list Call) (w : World S) : World S :=
  mkWorld (session w) (response w) (now w) c.

(** A handler either returns or raises; the world it leaves is kept in
    both cases. *)
Inductive result (A : Type) :=
| Ok (a : A)
| Raise (e : exn).
Arguments Ok {A} a.
Arguments Raise {A} e.

Definition M (S A : Type) : Type := World S -> result A * World S.

Definition ret {S A} (a : A) : M S A := fun w => (Ok a, w).

Definition raise {S A} (e : exn) : M S A := fun w => (Raise e, w).

Definition bind {S A B} (m : M S A) (k : A -> M S B) : M S B :=
  fun w =>
    match m w with
    | (Ok a, w') => k a w'
    | (Raise e, w') => (Raise e, w')
    end.

(** [try: m except: h]: an exception [e] of [m] for which [h e] is a
    handler is handled by it, any other one propagates. *)
Definition try_except {S A} (m : M S A) (h : exn -> option (M S A)) : M S A :=
  fun w =>
    match m w with
    | (Ok a, w') => (Ok a, w')
    | (Raise e, w') =>
        match h e with
        | Some k => k w'
        | None => (Raise e, w')
        end
    end.

Definition log {S} (c : Call) : M S unit :=
  fun w => (Ok tt, with_calls (calls w ++ [c]) w).

Notation "'let!' x ':=' m 'in' k" := (bind m (fun x => k))
  (at level 10, x pattern, m at level 100, k at level 200).
Notation "'do!' m 'in' k" := (bind m (fun _ => k))
  (at level 10, m at level 100, k at level 200).

(** ** Collaborators of the router *)

(** What the DAOs of [app.auth.dao] do on a session of type [S]: lookups
    read it, [add] either gives the session with the row added or raises. *)
Class Storage (S : Type) := {
  select_user : S -> UserFilter -> option User.t;
  select_user_by_id : S -> Z -> option User.t;
  select_all_users : S -> list User.t;
  insert_user : S -> SUserAddDB.t -> exn + S;
  select_role : S -> RoleAddModel.t -> option Role.t;
  insert_role : S -> RoleAddModel.t -> exn + S
}.

(** [app.auth.utils] and the settings: the password check, the signature
    of a token under the signing secret, the lifetimes of the two tokens
    and the roles that make an admin. *)
Class AuthUtils := {
  verify_password : User.t -> string -> bool;
  sign : Z -> Z -> Z;
  access_lifetime : Z;
  refresh_lifetime : Z;
  admin_role : Role.t -> bool
}.

Module UsersDAO.
Section Dao.
Context {S : Type} `{Storage S}.

Definition find_one_or_none (filters : UserFilter) : M S (option User.t) :=
  do! log (UsersDAO_find_one_or_none filters) in
  fun w => (Ok (select_user (session w) filters), w).

Definition find_one_or_none_by_id (uid : Z) : M S (option User.t) :=
  do! log (UsersDAO_find_by_id uid) in
  fun w => (Ok (select_user_by_id (session w) uid), w).

Definition find_all : M S (list User.t) :=
  do! log UsersDAO_find_all in
  fun w => (Ok (select_all_users (session w)), w).

Definition add (values : SUserAddDB.t) : M S unit :=
  do! log (UsersDAO_add values) in
  fun w =>
    match insert_user (session w) values with
    | inr s' => (Ok tt, with_session s' w)
    | inl e => (Raise e, w)
    end.

End Dao.
End UsersDAO.

Module RoleDAO.
Section Dao.
Context {S : Type} `{Storage S}.

Definition find_one_or_none (filters : RoleAddModel.t) : M S (option Role.t) :=
  do! log (RoleDAO_find_one_or_none filters) in
  fun w => (Ok (select_role (session w) filters), w).

Definition add (values : RoleAddModel.t) : M S unit :=
  do! log (RoleDAO_add values) in
  fun w =>
    match insert_role (session w) values with
    | inr s' => (Ok tt, with_session s' w)
    | inl e => (Raise e, w)
    end.

End Dao.
End RoleDAO.

(** ** Tokens *)

Section Router.
Context {S : Type} `{Storage S} `{AuthUtils}.

(** Modelled from the spec: [app.auth.utils.set_tokens] is not in the
    sources.  A token is signed and encodes the user id and its expiry;
    the access token is the short-lived one. *)
Definition create_token (uid expiry : Z) : Token :=
  {| tok_user_id := uid; tok_expiry := expiry; tok_signature := sign uid expiry |}.

Definition create_access_token (uid t : Z) : Token :=
  create_token uid (t + access_lifetime).

Definition create_refresh_token (uid t : Z) : Token :=
  create_token uid (t + refresh_lifetime).

(** [response.set_cookie] and [response.delete_cookie]. *)
Definition response_set_cookie (key : string) (value : Token) : M S unit :=
  fun w => (Ok tt, with_response (response w ++ [set_cookie key value]) w).

Definition delete_cookie (key : string) : M S unit :=
  fun w => (Ok tt, with_response (response w ++ [delete_cookie_op key]) w).

(** Modelled from the spec: [set_tokens] creates a signed access token and
    a signed refresh token for the user id and writes both as the cookies
    [user_access_token] and [user_refresh_token] of the response. *)
Definition set_tokens (uid : Z) : M S unit :=
  fun w =>
    (do! response_set_cookie "user_access_token" (create_access_token uid (now w)) in
     response_set_cookie "user_refresh_token" (create_refresh_token uid (now w))) w.

(** [authenticate_user(user=..., password=...)], read for its truth value. *)
Definition authenticate_user (user : User.t) (password : string) : M S bool :=
  ret (verify_password user password).

(** ** The handlers of the router *)

(** [POST /register/] *)
Definition register_user (user_data : SUserRegister.t) : M S Body :=
  let! existing_user :=
    UsersDAO.find_one_or_none (EmailModel (SUserRegister.email user_data)) in
  match existing_user with
  | Some _ => raise UserAlreadyExistsException
  | None =>
      let! existing_phone :=
        UsersDAO.find_one_or_none
          (PhoneModel (SUserRegister.phone_number user_data)) in
      match existing_phone with
      | Some _ => raise UserAlreadyExistsException
      | None =>
          let user_data_dict := SUserRegister.model_dump user_data in
          let user_data_dict := delete "confirm_password" user_data_dict in
          try_except
            (do! UsersDAO.add (SUserAddDB.mk user_data_dict) in
             ret [("message", JStr "Вы успешно зарегистрированы!")])
            (fun e =>
               match e with
               | IntegrityError => Some (raise UserAlreadyExistsException)
               | _ => None
               end)
      end
  end.

(** [POST /login/].  [user and await authenticate_user(...)] does not
    call [authenticate_user] when [user] is [None]. *)
Definition auth_user (user_data : SUserAuth.t) : M S Body :=
  let! user :=
    UsersDAO.find_one_or_none (EmailModel (SUserAuth.email user_data)) in
  match user with
  | None => raise IncorrectEmailOrPasswordException
  | Some u =>
      let! authenticated := authenticate_user u (SUserAuth.password user_data) in
      if negb authenticated then raise IncorrectEmailOrPasswordException
      else
        do! set_tokens (User.id u) in
        ret [("ok", JBool true); ("message", JStr "Авторизация успешна!")]
  end.

(** [POST /logout] *)
Definition logout : M S Body :=
  do! delete_cookie "user_access_token" in
  do! delete_cookie "user_refresh_token" in
  ret [("message", JStr "Пользователь успешно вышел из системы")].

(** [GET /all_users/], given the admin the dependency resolved. *)
Definition get_all_users (user_data : User.t) : M S (list User.t) :=
  UsersDAO.find_all.

(** [POST /refresh], given the user the dependency resolved. *)
Definition process_refresh_token (user : User.t) : M S Body :=
  do! set_tokens (User.id user) in
  ret [("message", JStr "Токены успешно обновлены")].

(** [POST /addroles], given the admin the dependency resolved. *)
Definition addroles (role_data : RoleAddModel.t) (current_admin : User.t)
  : M S Body :=
  let! role :=
    RoleDAO.find_one_or_none (RoleAddModel.mk (RoleAddModel.name role_data)) in
  match role with
  | Some _ => raise UserAlreadyExistsException
  | None =>
      let role_data_dict := RoleAddModel.model_dump role_data in
      match RoleAddModel.from_dict role_data_dict with
      | None => raise ValidationError
      | Some values =>
          do! RoleDAO.add values in
          ret [("message", JStr "Роль успешно добавлена")]
      end
  end.

(** ** The token dependencies and the routes *)

(** The cookies a request carries. *)
Record Request := { cookies : gmap string Token }.

(** Modelled from the spec: [app.dependencies.auth_dep] is not in the
    sources.  A token is verified by its signature and its expiry. *)
Definition token_valid (t : Token) (time : Z) : bool :=
  (tok_signature t =? sign (tok_user_id t) (tok_expiry t)) && (time <? tok_expiry t).

(** Modelled from the spec: the token validator extracts the token from
    the request, verifies it and resolves it to a user, or fails; a
    missing, invalid or expired token fails with [Unauthorized]. *)
Definition validate_token (key : string) (request : Request) : M S User.t :=
  match cookies request !! key with
  | None => raise Unauthorized
  | Some t =>
      fun w =>
        (if token_valid t (now w) then
           let! user := UsersDAO.find_one_or_none_by_id (tok_user_id t) in
           match user with
           | None => raise Unauthorized
           | Some u => ret u
           end
         else raise Unauthorized) w
  end.

(** Modelled from the spec: [get_current_user] validates the access
    token of the request. *)
Definition get_current_user (request : Request) : M S User.t :=
  validate_token "user_access_token" request.

(** Modelled from the spec: [check_refresh_token] validates the refresh
    token of the request. *)
Definition check_refresh_token (request : Request) : M S User.t :=
  validate_token "user_refresh_token" request.

(** Modelled from the spec: an admin is a user who has an admin role. *)
Definition is_admin (u : User.t) : bool := existsb admin_role (User.roles u).

(** Modelled from the spec: [get_current_admin_user]; a valid access token
    whose user has no admin role fails with [Forbidden]. *)
Definition get_current_admin_user (request : Request) : M S User.t :=
  let! u := get_current_user request in
  if is_admin u then ret u else raise Forbidden.

(** The routes: the dependencies of a handler are resolved first, and the
    handler runs on what they return. *)
Definition route_all_users (request : Request) : M S (list User.t) :=
  let! user_data := get_current_admin_user request in
  get_all_users user_data.

Definition route_refresh (request : Request) : M S Body :=
  let! user := check_refresh_token request in
  process_refresh_token user.

Definition route_addroles (request : Request) (role_data : RoleAddModel.t)
  : M S Body :=
  let! current_admin := get_current_admin_user request in
  addroles role_data current_admin.

End Router.

(** ** A database in memory *)

(** Modelled from the spec: [app.auth.dao] is not in the sources.  The
    credential store keeps the users and the roles; emails and phone
    numbers are unique across users and names across roles, which the store
    enforces on insertion. *)
Record Store := mkStore {
  users : list User.t;
  roles : list Role.t
}.

Definition user_matches (f : UserFilter) (u : User.t) : bool :=
  match f with
  | EmailModel e => String.eqb (User.email u) e
  | PhoneModel p => String.eqb (User.phone_number u) p
  end.

Definition role_matches (f : RoleAddModel.t) (r : Role.t) : bool :=
  String.eqb (Role.name r) (RoleAddModel.name f).

Definition field (k : string) (v : SUserAddDB.t) : string :=
  default "" (SUserAddDB.fields v !! k).

Definition new_user (st : Store) (v : SUserAddDB.t) : User.t :=
  User.mk (Z.of_nat (length (users st)) + 1)
    (field "email" v) (field "phone_number" v) (field "password" v) [].

Definition store_insert_user (st : Store) (v : SUserAddDB.t) : exn + Store :=
  let u := new_user st v in
  if existsb (fun x => user_matches (EmailModel (User.email u)) x
                       || user_matches (PhoneModel (User.phone_number u)) x)
       (users st)
  then inl IntegrityError
  else inr (mkStore (users st ++ [u]) (roles st)).

Definition store_insert_role (st : Store) (v : RoleAddModel.t) : exn + Store :=
  if existsb (role_matches v) (roles st)
  then inl IntegrityError
  else inr (mkStore (users st) (roles st ++ [Role.mk (RoleAddModel.name v)])).

#[export] Instance store_storage : Storage Store := {
  select_user st f := List.find (user_matches f) (users st);
  select_user_by_id st uid := List.find (fun u => User.id u =? uid) (users st);
  select_all_users st := users st;
  insert_user := store_insert_user;
  select_role st f := List.find (role_matches f) (roles st);
  insert_role := store_insert_role
}.

(** The same store with a concurrent request in flight: the rows of
    [concurrent] are committed by another request after this request's
    lookups and before its insert. *)
Record RacingStore := mkRacing {
  seen : Store;
  concurrent : list SUserAddDB.t
}.

Definition land (st : Store) (v : SUserAddDB.t) : Store :=
  match store_insert_user st v with
  | inr st' => st'
  | inl _ => st
  end.

Definition racing_insert_user (rs : RacingStore) (v : SUserAddDB.t)
  : exn + RacingStore :=
  match store_insert_user (fold_left land (concurrent rs) (seen rs)) v with
  | inr st' => inr (mkRacing st' [])
  | inl e => inl e
  end.

Definition racing_insert_role (rs : RacingStore) (v : RoleAddModel.t)
  : exn + RacingStore :=
  match store_insert_role (seen rs) v with
  | inr st' => inr (mkRacing st' (concurrent rs))
  | inl e => inl e
  end.

#[export] Instance racing_storage : Storage RacingStore := {
  select_user rs := select_user (seen rs);
  select_user_by_id rs := select_user_by_id (seen rs);
  select_all_users rs := select_all_users (seen rs);
  insert_user := racing_insert_user;
  select_role rs := select_role (seen rs);
  insert_role := racing_insert_role
}.

(** A token scheme and settings to run the router on. *)
#[export] Instance demo_utils : AuthUtils := {
  verify_password u pw := String.eqb (User.password u) pw;
  sign uid expiry := 7919 * uid + 31 * expiry + 104729;
  access_lifetime := 1800;
  refresh_lifetime := 604800;
  admin_role r := String.eqb (Role.name r) "admin"
}.

(** A database, an admin's request and forms to run the router on. *)
Definition alice : User.t := User.mk 1 "alice@example.org" "+100" "hash-a" [Role.mk "admin"].

Definition bob : User.t := User.mk 2 "bob@example.org" "+200" "hash-b" [Role.mk "user"].

Definition store0 : Store := mkStore [alice; bob] [Role.mk "admin"; Role.mk "user"].

Definition world0 : World Store := mkWorld store0 [] 1000 [].

Definition carol_form : SUserRegister.t :=
  SUserRegister.mk "carol@example.org" "+300" "hash-c" "hash-c" {[ "first_name" := "Carol" ]}.

Definition request_of (access refresh : option Token) : Request :=
  {| cookies :=
       match access, refresh with
       | Some a, Some r => {[ "user_access_token" := a; "user_refresh_token" := r ]}
       | Some a, None => {[ "user_access_token" := a ]}
       | None, Some r => {[ "user_refresh_token" := r ]}
       | None, None => ∅
       end |}.

Definition alice_request : Request :=
  request_of (Some (create_access_token 1 900)) (Some (create_refresh_token 1 900)).

Definition bob_request : Request :=
  request_of (Some (create_access_token 2 900)) (Some (create_refresh_token 2 900)).

Definition alice_again_form : SUserRegister.t :=
  SUserRegister.mk "alice@example.org" "+400" "hash-d" "hash-d" ∅.

Definition bob_phone_form : SUserRegister.t :=
  SUserRegister.mk "dave@example.org" "+200" "hash-d" "hash-d" ∅.

(** [world0] while another request registers Carol's email. *)
Definition racing_world0 : World RacingStore :=
  mkWorld
    (mkRacing store0
       [SUserAddDB.mk {[ "email" := "carol@example.org"; "phone_number" := "+999" ]}])
    [] 1000 [].

Definition nobody_login : SUserAuth.t := SUserAuth.mk "nobody@example.org" "hash-a".

Definition alice_wrong_login : SUserAuth.t := SUserAuth.mk "alice@example.org" "guess".

Definition alice_login : SUserAuth.t := SUserAuth.mk "alice@example.org" "hash-a".

(** Alice's refresh token of an hour before [world0] with its expiry moved
    into the future: its signature no longer fits. *)
Definition tampered_token : Token :=
  {| tok_user_id := 1; tok_expiry := 5000; tok_signature := sign 1 500 |}.

(** A store that refuses every insert with [failure]; its lookups read
    [inner]. *)
Record FailingStore := mkFailing {
  inner : Store;
  failure : exn
}.

#[export] Instance failing_storage : Storage FailingStore := {
  select_user fs := select_user (inner fs);
  select_user_by_id fs := select_user_by_id (inner fs);
  select_all_users fs := select_all_users (inner fs);
  insert_user fs _ := inl (failure fs);
  select_role fs := select_role (inner fs);
  insert_role fs _ := inl (failure fs)
}.

Definition failing_world0 (e : exn) : World FailingStore :=
  mkWorld (mkFailing store0 e) [] 1000 [].

(** ** Running the handlers *)

Ltac run :=
  unfold bind, ret, raise, log, try_except, with_calls, with_session,
    with_response; cbn.

Section RouterFacts.
Context {S : Type} `{Storage S} `{AuthUtils}.

Local Abbreviation record_of d :=
  (SUserAddDB.mk (delete "confirm_password" (SUserRegister.model_dump d))).

Local Abbreviation register_calls d :=
  [UsersDAO_find_one_or_none (EmailModel (SUserRegister.email d));
   UsersDAO_find_one_or_none (PhoneModel (SUserRegister.phone_number d));
   UsersDAO_add (record_of d)].

Lemma register_user_email_taken (user_data : SUserRegister.t) (w : World S) u :
  select_user (session w) (EmailModel (SUserRegister.email user_data)) = Some u ->
  register_user user_data w =
    (Raise UserAlreadyExistsException,
     with_calls
       (calls w ++ [UsersDAO_find_one_or_none (EmailModel (SUserRegister.email user_data))])
       w).
Proof.
  intros He. unfold register_user, UsersDAO.find_one_or_none. run.
  now rewrite He.
Qed.

Lemma register_user_phone_taken (user_data : SUserRegister.t) (w : World S) u :
  select_user (session w) (EmailModel (SUserRegister.email user_data)) = None ->
  select_user (session w) (PhoneModel (SUserRegister.phone_number user_data)) = Some u ->
  register_user user_data w =
    (Raise UserAlreadyExistsException,
     with_calls
       (calls w ++ [UsersDAO_find_one_or_none (EmailModel (SUserRegister.email user_data));
                    UsersDAO_find_one_or_none
                      (PhoneModel (SUserRegister.phone_number user_data))])
       w).
Proof.
  intros He Hp. unfold register_user, UsersDAO.find_one_or_none. run.
  rewrite He. cbn. rewrite Hp. cbn. now rewrite <- app_assoc.
Qed.

(** Past the two lookups, the outcome is that of the insert, with an
    [IntegrityError] turned into [UserAlreadyExistsException]. *)
Lemma register_user_fresh (user_data : SUserRegister.t) (w : World S) :
  select_user (session w) (EmailModel (SUserRegister.email user_data)) = None ->
  select_user (session w) (PhoneModel (SUserRegister.phone_number user_data)) = None ->
  register_user user_data w =
    match insert_user (session w) (record_of user_data) with
    | inr s' =>
        (Ok [("message", JStr "Вы успешно зарегистрированы!")],
         mkWorld s' (response w) (now w) (calls w ++ register_calls user_data))
    | inl e =>
        (Raise match e with
               | IntegrityError => UserAlreadyExistsException
               | _ => e
               end,
         with_calls (calls w ++ register_calls user_data) w)
    end.
Proof.
  intros He Hp. unfold register_user, UsersDAO.find_one_or_none, UsersDAO.add.
  run. rewrite He. cbn. rewrite Hp. cbn.
  rewrite <- !app_assoc. cbn.
  destruct (insert_user _ _) as [e | s']; [destruct e |]; reflexivity.
Qed.

(** A registration that succeeds went past both lookups and its insert
    gave a new session. *)
Lemma register_user_ok_inv (user_data : SUserRegister.t) (w : World S) body :
  fst (register_user user_data w) = Ok body ->
  select_user (session w) (EmailModel (SUserRegister.email user_data)) = None /\
  select_user (session w) (PhoneModel (SUserRegister.phone_number user_data)) = None /\
  exists s', insert_user (session w) (record_of user_data) = inr s'.
Proof.
  intros Hok.
  destruct (select_user (session w) (EmailModel (SUserRegister.email user_data)))
    as [u |] eqn:He.
  { rewrite (register_user_email_taken _ _ u He) in Hok. discriminate. }
  destruct (select_user (session w)
              (PhoneModel (SUserRegister.phone_number user_data))) as [u |] eqn:Hp.
  { rewrite (register_user_phone_taken _ _ u He Hp) in Hok. discriminate. }
  rewrite (register_user_fresh _ _ He Hp) in Hok.
  destruct (insert_user _ _) as [e | s']; [discriminate | eauto].
Qed.

(** The login handler, run. *)
Lemma auth_user_run (user_data : SUserAuth.t) (w : World S) :
  auth_user user_data w =
    let looked :=
      with_calls
        (calls w ++ [UsersDAO_find_one_or_none (EmailModel (SUserAuth.email user_data))])
        w in
    match select_user (session w) (EmailModel (SUserAuth.email user_data)) with
    | None => (Raise IncorrectEmailOrPasswordException, looked)
    | Some u =>
        if verify_password u (SUserAuth.password user_data)
        then (Ok [("ok", JBool true); ("message", JStr "Авторизация успешна!")],
              with_response
                (response w ++
                   [set_cookie "user_access_token" (create_access_token (User.id u) (now w));
                    set_cookie "user_refresh_token" (create_refresh_token (User.id u) (now w))])
                looked)
        else (Raise IncorrectEmailOrPasswordException, looked)
    end.
Proof.
  unfold auth_user, UsersDAO.find_one_or_none, authenticate_user, set_tokens,
    response_set_cookie.
  run. destruct (select_user _ _) as [u |]; cbn; [| reflexivity].
  destruct (verify_password _ _); cbn; [| reflexivity].
  now rewrite <- app_assoc.
Qed.

(** The role handler, run. *)
Lemma addroles_run (role_data : RoleAddModel.t) (current_admin : User.t) (w : World S) :
  addroles role_data current_admin w =
    let filters := RoleAddModel.mk (RoleAddModel.name role_data) in
    match select_role (session w) filters with
    | Some _ =>
        (Raise UserAlreadyExistsException,
         with_calls (calls w ++ [RoleDAO_find_one_or_none filters]) w)
    | None =>
        match insert_role (session w) filters with
        | inr s' =>
            (Ok [("message", JStr "Роль успешно добавлена")],
             mkWorld s' (response w) (now w)
               (calls w ++ [RoleDAO_find_one_or_none filters; RoleDAO_add filters]))
        | inl e =>
            (Raise e,
             with_calls
               (calls w ++ [RoleDAO_find_one_or_none filters; RoleDAO_add filters]) w)
        end
    end.
Proof.
  unfold addroles, RoleDAO.find_one_or_none, RoleDAO.add. run.
  destruct (select_role _ _) as [r |]; cbn; [reflexivity |].
  unfold RoleAddModel.from_dict, RoleAddModel.model_dump.
  rewrite lookup_singleton_eq. cbn. rewrite <- !app_assoc. cbn.
  destruct (insert_role _ _); reflexivity.
Qed.

(** The token validator, run. *)
Lemma validate_token_run (key : string) (request : Request) (w : World S) :
  validate_token key request w =
    match cookies request !! key with
    | None => (Raise Unauthorized, w)
    | Some t =>
        if token_valid t (now w)
        then
          let looked := with_calls (calls w ++ [UsersDAO_find_by_id (tok_user_id t)]) w in
          match select_user_by_id (session w) (tok_user_id t) with
          | Some u => (Ok u, looked)
          | None => (Raise Unauthorized, looked)
          end
        else (Raise Unauthorized, w)
    end.
Proof.
  unfold validate_token, UsersDAO.find_one_or_none_by_id.
  destruct (cookies request !! key) as [t |]; [| reflexivity].
  destruct (token_valid t (now w)); [| reflexivity].
  run. destruct (select_user_by_id _ _); reflexivity.
Qed.

Lemma client_cookies_snoc2 (jar : gmap string Token) (resp : list CookieOp) a b :
  client_cookies jar (resp ++ [a; b]) =
    apply_cookie_op (apply_cookie_op (client_cookies jar resp) a) b.
Proof. unfold client_cookies. now rewrite fold_left_app. Qed.

(** ** Registration *)

(** C2: a registration whose email is already there fails with
    [UserAlreadyExistsException] after the email lookup alone; one whose
    email is free and whose phone number is already there fails with it
    after the two lookups, email first; neither calls [add].  When both
    lookups find nothing and the insert raises [IntegrityError], the
    handler raises [UserAlreadyExistsException] in its place. *)
Theorem register_user_duplicate (user_data : SUserRegister.t) (w : World S) :
  (forall u,
      select_user (session w) (EmailModel (SUserRegister.email user_data)) = Some u ->
      register_user user_data w =
        (Raise UserAlreadyExistsException,
         with_calls
           (calls w ++
              [UsersDAO_find_one_or_none (EmailModel (SUserRegister.email user_data))])
           w)) /\
  (forall u,
      select_user (session w) (EmailModel (SUserRegister.email user_data)) = None ->
      select_user (session w)
        (PhoneModel (SUserRegister.phone_number user_data)) = Some u ->
      register_user user_data w =
        (Raise UserAlreadyExistsException,
         with_calls
           (calls w ++
              [UsersDAO_find_one_or_none (EmailModel (SUserRegister.email user_data));
               UsersDAO_find_one_or_none
                 (PhoneModel (SUserRegister.phone_number user_data))])
           w)) /\
  (select_user (session w) (EmailModel (SUserRegister.email user_data)) = None ->
   select_user (session w)
     (PhoneModel (SUserRegister.phone_number user_data)) = None ->
   insert_user (session w) (record_of user_data) = inl IntegrityError ->
   register_user user_data w =
     (Raise UserAlreadyExistsException,
      with_calls (calls w ++ register_calls user_data) w)).
Proof.
  split; [| split].
  - intros u He. exact (register_user_email_taken _ _ u He).
  - intros u He Hp. exact (register_user_phone_taken _ _ u He Hp).
  - intros He Hp Hins. rewrite (register_user_fresh _ _ He Hp), Hins. reflexivity.
Qed.

(** C4: a registration that succeeds has called [add] once, after the two
    lookups, with the submitted fields less [confirm_password]: the record
    has no [confirm_password], and every other field as submitted. *)
Theorem register_user_drops_confirm_password
  (user_data : SUserRegister.t) (w : World S) (body : Body) :
  fst (register_user user_data w) = Ok body ->
  exists values : SUserAddDB.t,
    calls (snd (register_user user_data w)) =
      calls w ++
        [UsersDAO_find_one_or_none (EmailModel (SUserRegister.email user_data));
         UsersDAO_find_one_or_none (PhoneModel (SUserRegister.phone_number user_data));
         UsersDAO_add values] /\
    SUserAddDB.fields values =
      delete "confirm_password" (SUserRegister.model_dump user_data) /\
    SUserAddDB.fields values !! "confirm_password" = None /\
    SUserAddDB.fields values !! "email" = Some (SUserRegister.email user_data) /\
    SUserAddDB.fields values !! "phone_number" =
      Some (SUserRegister.phone_number user_data) /\
    SUserAddDB.fields values !! "password" = Some (SUserRegister.password user_data) /\
    (forall k : string,
        k <> "confirm_password" ->
        SUserAddDB.fields values !! k = SUserRegister.model_dump user_data !! k).
Proof.
  intros Hok.
  destruct (register_user_ok_inv _ _ _ Hok) as (He & Hp & s' & Hins).
  exists (record_of user_data).
  rewrite (register_user_fresh _ _ He Hp), Hins. cbn.
  unfold SUserRegister.model_dump.
  repeat split; try reflexivity.
  - apply lookup_delete_eq.
  - rewrite lookup_delete_ne by discriminate. apply lookup_insert_eq.
  - rewrite lookup_delete_ne by discriminate.
    rewrite lookup_insert_ne by discriminate. apply lookup_insert_eq.
  - rewrite lookup_delete_ne by discriminate.
    rewrite !lookup_insert_ne by discriminate. apply lookup_insert_eq.
  - intros k Hk. now rewrite lookup_delete_ne by congruence.
Qed.

(** C10: a registration stopped by a lookup leaves the session and the
    response as they were and has made lookups only: the email lookup
    alone when it finds a user, the email and the phone lookups otherwise;
    [add] is not called. *)
Theorem register_user_precheck_failure_frame
  (user_data : SUserRegister.t) (w : World S) :
  is_Some (select_user (session w) (EmailModel (SUserRegister.email user_data))) \/
  is_Some (select_user (session w)
             (PhoneModel (SUserRegister.phone_number user_data))) ->
  fst (register_user user_data w) = Raise UserAlreadyExistsException /\
  session (snd (register_user user_data w)) = session w /\
  response (snd (register_user user_data w)) = response w /\
  calls (snd (register_user user_data w)) =
    calls w ++
      match select_user (session w) (EmailModel (SUserRegister.email user_data)) with
      | Some _ =>
          [UsersDAO_find_one_or_none (EmailModel (SUserRegister.email user_data))]
      | None =>
          [UsersDAO_find_one_or_none (EmailModel (SUserRegister.email user_data));
           UsersDAO_find_one_or_none
             (PhoneModel (SUserRegister.phone_number user_data))]
      end.
Proof.
  intros Hdup.
  destruct (select_user (session w) (EmailModel (SUserRegister.email user_data)))
    as [u |] eqn:He.
  - rewrite (register_user_email_taken _ _ u He). repeat split.
  - destruct Hdup as [[u Hu] | [u Hp]]; [discriminate |].
    rewrite (register_user_phone_taken _ _ u He Hp). repeat split.
Qed.

(** ** Login and logout *)

(** C3: a login with an email no user has and a login with the email of a
    user whose password check fails raise the same
    [IncorrectEmailOrPasswordException], and neither touches the cookies
    of the response; a login succeeds exactly when the email lookup gives a
    user and the password check on that user passes. *)
Theorem auth_user_enumeration_resistance
  (d1 d2 : SUserAuth.t) (w1 w2 : World S) (u : User.t) :
  select_user (session w1) (EmailModel (SUserAuth.email d1)) = None ->
  select_user (session w2) (EmailModel (SUserAuth.email d2)) = Some u ->
  verify_password u (SUserAuth.password d2) = false ->
  fst (auth_user d1 w1) = Raise IncorrectEmailOrPasswordException /\
  fst (auth_user d2 w2) = Raise IncorrectEmailOrPasswordException /\
  fst (auth_user d1 w1) = fst (auth_user d2 w2) /\
  response (snd (auth_user d1 w1)) = response w1 /\
  response (snd (auth_user d2 w2)) = response w2 /\
  (forall (d : SUserAuth.t) (w : World S),
      (exists body, fst (auth_user d w) = Ok body) <->
      (exists u',
          select_user (session w) (EmailModel (SUserAuth.email d)) = Some u' /\
          verify_password u' (SUserAuth.password d) = true)).
Proof.
  intros Hnone Hsome Hwrong.
  assert (Hsucc : forall (d : SUserAuth.t) (w : World S),
      (exists body, fst (auth_user d w) = Ok body) <->
      (exists u',
          select_user (session w) (EmailModel (SUserAuth.email d)) = Some u' /\
          verify_password u' (SUserAuth.password d) = true)).
  { intros d w. rewrite auth_user_run. cbn zeta. split.
    - intros [body Hok].
      destruct (select_user (session w) _) as [u' |]; [| discriminate].
      exists u'. split; [reflexivity |].
      destruct (verify_password u' _); [reflexivity | discriminate].
    - intros (u' & Hu & Hv). rewrite Hu, Hv. eauto. }
  rewrite (auth_user_run d1 w1), (auth_user_run d2 w2). cbn zeta.
  rewrite Hnone, Hsome, Hwrong. cbn.
  repeat split; try reflexivity; apply Hsucc.
Qed.

(** C9: a login, whether it succeeds or fails, leaves the session as it
    was, and its one DAO call is the lookup of the user by email. *)
Theorem auth_user_reads_only (user_data : SUserAuth.t) (w : World S) :
  session (snd (auth_user user_data w)) = session w /\
  calls (snd (auth_user user_data w)) =
    calls w ++ [UsersDAO_find_one_or_none (EmailModel (SUserAuth.email user_data))].
Proof.
  rewrite auth_user_run. cbn zeta.
  destruct (select_user _ _) as [u |]; [| split; reflexivity].
  destruct (verify_password _ _); split; reflexivity.
Qed.

(** C7: logout never raises; it records the deletion of the cookies
    [user_access_token] and [user_refresh_token] on the response and
    nothing else, makes no DAO call and leaves the session as it was; a
    client that held any cookies holds the same ones less these two. *)
Theorem logout_clears_both_cookies (w : World S) (jar : gmap string Token) :
  logout w =
    (Ok [("message", JStr "Пользователь успешно вышел из системы")],
     with_response
       (response w ++
          [delete_cookie_op "user_access_token"; delete_cookie_op "user_refresh_token"])
       w) /\
  session (snd (logout w)) = session w /\
  calls (snd (logout w)) = calls w /\
  client_cookies jar (response (snd (logout w))) =
    delete "user_refresh_token"
      (delete "user_access_token" (client_cookies jar (response w))).
Proof.
  assert (Hrun : logout w =
    (Ok [("message", JStr "Пользователь успешно вышел из системы")],
     with_response
       (response w ++
          [delete_cookie_op "user_access_token"; delete_cookie_op "user_refresh_token"])
       w)).
  { unfold logout, delete_cookie. run. now rewrite <- app_assoc. }
  rewrite Hrun. cbn. repeat split.
  apply client_cookies_snoc2.
Qed.

(** ** The routes behind a token *)

(** C5: a refresh whose cookie holds a token with a good signature, not
    expired, of a user the store resolves, succeeds and writes a new access
    token and a new refresh token for that user over the two cookies; a
    refresh with no refresh cookie, or with a token that is tampered or
    expired or of no user, raises [Unauthorized] and leaves the response
    and the session as they were. *)
Theorem route_refresh_rotates_or_rejects
  (request : Request) (w : World S) (jar : gmap string Token) :
  (forall t u,
      cookies request !! "user_refresh_token" = Some t ->
      token_valid t (now w) = true ->
      select_user_by_id (session w) (tok_user_id t) = Some u ->
      fst (route_refresh request w) = Ok [("message", JStr "Токены успешно обновлены")] /\
      session (snd (route_refresh request w)) = session w /\
      response (snd (route_refresh request w)) =
        response w ++
          [set_cookie "user_access_token" (create_access_token (User.id u) (now w));
           set_cookie "user_refresh_token" (create_refresh_token (User.id u) (now w))] /\
      client_cookies jar (response (snd (route_refresh request w)))
        !! "user_access_token" = Some (create_access_token (User.id u) (now w)) /\
      client_cookies jar (response (snd (route_refresh request w)))
        !! "user_refresh_token" = Some (create_refresh_token (User.id u) (now w))) /\
  (cookies request !! "user_refresh_token" = None \/
   (exists t, cookies request !! "user_refresh_token" = Some t /\
              (token_valid t (now w) = false \/
               select_user_by_id (session w) (tok_user_id t) = None)) ->
   fst (route_refresh request w) = Raise Unauthorized /\
   response (snd (route_refresh request w)) = response w /\
   session (snd (route_refresh request w)) = session w).
Proof.
  unfold route_refresh, check_refresh_token, bind.
  rewrite validate_token_run. split.
  - intros t u Hc Hv Hu. rewrite Hc, Hv. cbn zeta. rewrite Hu.
    unfold process_refresh_token, set_tokens, response_set_cookie. run.
    rewrite <- app_assoc. cbn. repeat split.
    + rewrite fold_left_app. cbn.
      rewrite lookup_insert_ne by discriminate. apply lookup_insert_eq.
    + rewrite fold_left_app. cbn. apply lookup_insert_eq.
  - intros [Hc | (t & Hc & [Hv | Hu])]; rewrite Hc.
    + repeat split.
    + rewrite Hv. repeat split.
    + destruct (token_valid t (now w)); [| repeat split].
      cbn zeta. rewrite Hu. repeat split.
Qed.

(** C6: the listing of all users raises [Unauthorized] when the access
    cookie is missing or holds a token that is tampered or expired or of no
    user, raises [Forbidden] when the token is valid and its user has no
    admin role, and returns all the users of the store when its user is an
    admin. *)
Theorem route_all_users_access (request : Request) (w : World S) :
  (cookies request !! "user_access_token" = None \/
   (exists t, cookies request !! "user_access_token" = Some t /\
              (token_valid t (now w) = false \/
               select_user_by_id (session w) (tok_user_id t) = None)) ->
   fst (route_all_users request w) = Raise Unauthorized) /\
  (forall t u,
      cookies request !! "user_access_token" = Some t ->
      token_valid t (now w) = true ->
      select_user_by_id (session w) (tok_user_id t) = Some u ->
      is_admin u = false ->
      fst (route_all_users request w) = Raise Forbidden) /\
  (forall t u,
      cookies request !! "user_access_token" = Some t ->
      token_valid t (now w) = true ->
      select_user_by_id (session w) (tok_user_id t) = Some u ->
      is_admin u = true ->
      fst (route_all_users request w) = Ok (select_all_users (session w))).
Proof.
  unfold route_all_users, get_current_admin_user, get_current_user, bind.
  rewrite validate_token_run. split; [| split].
  - intros [Hc | (t & Hc & [Hv | Hu])]; rewrite Hc.
    + reflexivity.
    + now rewrite Hv.
    + destruct (token_valid t (now w)); [| reflexivity].
      cbn zeta. now rewrite Hu.
  - intros t u Hc Hv Hu Ha. rewrite Hc, Hv. cbn zeta. now rewrite Hu, Ha.
  - intros t u Hc Hv Hu Ha. rewrite Hc, Hv. cbn zeta. now rewrite Hu, Ha.
Qed.

End RouterFacts.

(** ** Roles *)

(** C8: for any DAOs, an [addroles] that succeeds has made two DAO calls,
    the lookup of the submitted name among the roles and one [RoleDAO.add]
    of that name, whose session it leaves; it makes no call on the users.
    On the store in memory the users are as before and the roles are the
    former ones followed by the one role of the submitted name. *)
Theorem addroles_only_adds_role :
  (forall (S : Type) (HS : Storage S) (role_data : RoleAddModel.t)
          (current_admin : User.t) (w : World S) (body : Body),
      fst (addroles role_data current_admin w) = Ok body ->
      calls (snd (addroles role_data current_admin w)) =
        calls w ++
          [RoleDAO_find_one_or_none (RoleAddModel.mk (RoleAddModel.name role_data));
           RoleDAO_add (RoleAddModel.mk (RoleAddModel.name role_data))] /\
      insert_role (session w) (RoleAddModel.mk (RoleAddModel.name role_data)) =
        inr (session (snd (addroles role_data current_admin w))) /\
      response (snd (addroles role_data current_admin w)) = response w) /\
  (forall (role_data : RoleAddModel.t) (current_admin : User.t)
          (w : World Store) (body : Body),
      fst (addroles role_data current_admin w) = Ok body ->
      users (session (snd (addroles role_data current_admin w))) = users (session w) /\
      roles (session (snd (addroles role_data current_admin w))) =
        roles (session w) ++ [Role.mk (RoleAddModel.name role_data)]).
Proof.
  split.
  - intros S HS role_data current_admin w body. rewrite addroles_run. cbn zeta.
    destruct (select_role _ _); [discriminate |].
    destruct (insert_role _ _) as [e | s'] eqn:Hins; [discriminate |].
    intros _. cbn. repeat split.
  - intros role_data current_admin w body. rewrite addroles_run. cbn zeta.
    destruct (select_role _ _); [discriminate |].
    cbn. unfold store_insert_role.
    destruct (existsb _ _); [discriminate |].
    intros _. cbn. split; reflexivity.
Qed.

(** C1: on a store that has the role [admin], the admin Alice's request
    to add the role [admin] raises [UserAlreadyExistsException], the
    exception a registration with an email already there raises; the router
    has no exception of its own for a role that exists. *)
Theorem addroles_existing_role_raises_user_exists :
  route_addroles alice_request (RoleAddModel.mk "admin") world0 =
    (Raise UserAlreadyExistsException,
     with_calls
       [UsersDAO_find_by_id 1; RoleDAO_find_one_or_none (RoleAddModel.mk "admin")]
       world0) /\
  fst (register_user alice_again_form world0) = Raise UserAlreadyExistsException.
Proof. split; vm_compute; reflexivity. Qed.

(** ** The theorems at work *)

Lemma register_user_duplicate_witness :
  fst (register_user alice_again_form world0) = Raise UserAlreadyExistsException /\
  fst (register_user bob_phone_form world0) = Raise UserAlreadyExistsException /\
  (insert_user (session racing_world0)
     (SUserAddDB.mk (delete "confirm_password" (SUserRegister.model_dump carol_form))) =
     inl IntegrityError /\
   fst (register_user carol_form racing_world0) = Raise UserAlreadyExistsException).
Proof.
  split; [| split; [| split]].
  - exact (f_equal fst
             (proj1 (register_user_duplicate alice_again_form world0) alice eq_refl)).
  - exact (f_equal fst
             (proj1 (proj2 (register_user_duplicate bob_phone_form world0))
                bob eq_refl eq_refl)).
  - vm_compute. reflexivity.
  - refine (f_equal fst
              (proj2 (proj2 (register_user_duplicate carol_form racing_world0))
                 eq_refl eq_refl _)).
    vm_compute. reflexivity.
Defined.

Lemma register_user_drops_confirm_password_witness :
  fst (register_user carol_form world0) =
    Ok [("message", JStr "Вы успешно зарегистрированы!")] /\
  exists values : SUserAddDB.t,
    calls (snd (register_user carol_form world0)) =
      [UsersDAO_find_one_or_none (EmailModel "carol@example.org");
       UsersDAO_find_one_or_none (PhoneModel "+300");
       UsersDAO_add values] /\
    SUserAddDB.fields values !! "confirm_password" = None /\
    SUserAddDB.fields values !! "first_name" = Some "Carol".
Proof.
  assert (Hok : fst (register_user carol_form world0) =
                Ok [("message", JStr "Вы успешно зарегистрированы!")])
    by (vm_compute; reflexivity).
  split; [exact Hok |].
  destruct (register_user_drops_confirm_password carol_form world0 _ Hok)
    as (values & Hcalls & _ & Hconfirm & _ & _ & _ & Hrest).
  exists values. split; [exact Hcalls |]. split; [exact Hconfirm |].
  rewrite Hrest by discriminate. vm_compute. reflexivity.
Defined.

Lemma register_user_precheck_failure_frame_witness :
  session (snd (register_user alice_again_form world0)) = store0 /\
  calls (snd (register_user alice_again_form world0)) =
    [UsersDAO_find_one_or_none (EmailModel "alice@example.org")] /\
  calls (snd (register_user bob_phone_form world0)) =
    [UsersDAO_find_one_or_none (EmailModel "dave@example.org");
     UsersDAO_find_one_or_none (PhoneModel "+200")].
Proof.
  pose proof (register_user_precheck_failure_frame alice_again_form world0
                ltac:(left; exists alice; reflexivity)) as (_ & Hs & _ & Hc).
  pose proof (register_user_precheck_failure_frame bob_phone_form world0
                ltac:(right; exists bob; reflexivity)) as (_ & _ & _ & Hc').
  split; [exact Hs |]. split; [exact Hc | exact Hc'].
Defined.

Lemma auth_user_enumeration_resistance_witness :
  fst (auth_user nobody_login world0) = fst (auth_user alice_wrong_login world0) /\
  fst (auth_user alice_wrong_login world0) = Raise IncorrectEmailOrPasswordException /\
  exists body, fst (auth_user alice_login world0) = Ok body.
Proof.
  pose proof (auth_user_enumeration_resistance nobody_login alice_wrong_login
                world0 world0 alice eq_refl eq_refl eq_refl)
    as (_ & Hwrong & Hsame & _ & _ & Hsucc).
  split; [exact Hsame |]. split; [exact Hwrong |].
  apply Hsucc. exists alice. split; reflexivity.
Defined.

Lemma route_refresh_rotates_or_rejects_witness :
  fst (route_refresh alice_request world0) =
    Ok [("message", JStr "Токены успешно обновлены")] /\
  response (snd (route_refresh alice_request world0)) =
    [set_cookie "user_access_token" (create_access_token 1 1000);
     set_cookie "user_refresh_token" (create_refresh_token 1 1000)] /\
  fst (route_refresh (request_of None None) world0) = Raise Unauthorized /\
  fst (route_refresh (request_of None (Some tampered_token)) world0) =
    Raise Unauthorized /\
  response (snd (route_refresh (request_of None (Some tampered_token)) world0)) = [] /\
  fst (route_refresh alice_request (mkWorld store0 [] 700000 [])) = Raise Unauthorized.
Proof.
  pose proof (proj1 (route_refresh_rotates_or_rejects alice_request world0 ∅)
                (create_refresh_token 1 900) alice eq_refl eq_refl eq_refl)
    as (Hok & _ & Hresp & _).
  pose proof (proj2 (route_refresh_rotates_or_rejects (request_of None None) world0 ∅)
                (or_introl eq_refl)) as (Hmissing & _).
  pose proof (proj2 (route_refresh_rotates_or_rejects
                       (request_of None (Some tampered_token)) world0 ∅)
                (or_intror (ex_intro _ tampered_token
                              (conj eq_refl (or_introl eq_refl)))))
    as (Htampered & Hsame & _).
  pose proof (proj2 (route_refresh_rotates_or_rejects alice_request
                       (mkWorld store0 [] 700000 []) ∅)
                (or_intror (ex_intro _ (create_refresh_token 1 900)
                              (conj eq_refl (or_introl eq_refl)))))
    as (Hexpired & _).
  repeat split; assumption.
Defined.

Lemma route_all_users_access_witness :
  fst (route_all_users (request_of None None) world0) = Raise Unauthorized /\
  fst (route_all_users bob_request world0) = Raise Forbidden /\
  fst (route_all_users alice_request world0) = Ok [alice; bob].
Proof.
  split; [| split].
  - exact (proj1 (route_all_users_access (request_of None None) world0)
             (or_introl eq_refl)).
  - exact (proj1 (proj2 (route_all_users_access bob_request world0))
             (create_access_token 2 900) bob eq_refl eq_refl eq_refl eq_refl).
  - exact (proj2 (proj2 (route_all_users_access alice_request world0))
             (create_access_token 1 900) alice eq_refl eq_refl eq_refl eq_refl).
Defined.

Lemma addroles_only_adds_role_witness :
  fst (addroles (RoleAddModel.mk "editor") alice world0) =
    Ok [("message", JStr "Роль успешно добавлена")] /\
  calls (snd (addroles (RoleAddModel.mk "editor") alice world0)) =
    [RoleDAO_find_one_or_none (RoleAddModel.mk "editor");
     RoleDAO_add (RoleAddModel.mk "editor")] /\
  users (session (snd (addroles (RoleAddModel.mk "editor") alice world0))) =
    [alice; bob] /\
  roles (session (snd (addroles (RoleAddModel.mk "editor") alice world0))) =
    [Role.mk "admin"; Role.mk "user"; Role.mk "editor"].
Proof.
  assert (Hok : fst (addroles (RoleAddModel.mk "editor") alice world0) =
                Ok [("message", JStr "Роль успешно добавлена")])
    by (vm_compute; reflexivity).
  split; [exact Hok |]. split.
  - exact (proj1 (proj1 addroles_only_adds_role Store _ (RoleAddModel.mk "editor")
                    alice world0 _ Hok)).
  - exact (proj2 addroles_only_adds_role (RoleAddModel.mk "editor") alice world0 _ Hok).
Defined.

(** ** Further properties of the handlers *)

Section HandlerFacts.
Context {S : Type} `{Storage S} `{AuthUtils}.

(** X1: when both lookups find nothing and the insert raises an exception
    other than [IntegrityError], the registration raises that same
    exception: the [except] clause handles [IntegrityError] alone.  The
    session and the response are as before. *)
Theorem register_user_other_errors_propagate
  (user_data : SUserRegister.t) (w : World S) (e : exn) :
  select_user (session w) (EmailModel (SUserRegister.email user_data)) = None ->
  select_user (session w) (PhoneModel (SUserRegister.phone_number user_data)) = None ->
  insert_user (session w)
    (SUserAddDB.mk (delete "confirm_password" (SUserRegister.model_dump user_data))) =
    inl e ->
  e <> IntegrityError ->
  fst (register_user user_data w) = Raise e /\
  session (snd (register_user user_data w)) = session w /\
  response (snd (register_user user_data w)) = response w.
Proof.
  intros He Hp Hins Hne.
  rewrite (register_user_fresh _ _ He Hp), Hins. cbn.
  destruct e; try (repeat split; reflexivity). now contradict Hne.
Qed.


(** X3: [addroles] has no handler around [RoleDAO.add]: when the lookup
    finds no role and the insert raises, [IntegrityError] included, the
    same exception leaves the handler, with the session as before. *)
Theorem addroles_add_errors_propagate
  (role_data : RoleAddModel.t) (current_admin : User.t) (w : World S) (e : exn) :
  select_role (session w) (RoleAddModel.mk (RoleAddModel.name role_data)) = None ->
  insert_role (session w) (RoleAddModel.mk (RoleAddModel.name role_data)) = inl e ->
  fst (addroles role_data current_admin w) = Raise e /\
  session (snd (addroles role_data current_admin w)) = session w.
Proof.
  intros Hsel Hins. rewrite addroles_run. cbn zeta. rewrite Hsel, Hins.
  split; reflexivity.
Qed.

(** X4: the value of [confirm_password] has no effect on a registration:
    two forms that differ in it alone give the same result and leave the
    same world. *)
Theorem register_user_ignores_confirm_password
  (email phone_number password c1 c2 : string) (profile : gmap string string)
  (w : World S) :
  register_user (SUserRegister.mk email phone_number password c1 profile) w =
  register_user (SUserRegister.mk email phone_number password c2 profile) w.
Proof.
  assert (Hrec : forall c,
    delete "confirm_password"
      (SUserRegister.model_dump
         (SUserRegister.mk email phone_number password c profile)) =
    <[ "email" := email ]>
      (<[ "phone_number" := phone_number ]>
         (<[ "password" := password ]> (delete "confirm_password" profile)))).
  { intros c. unfold SUserRegister.model_dump. cbn.
    rewrite !(delete_insert_ne _ "confirm_password") by discriminate.
    now rewrite delete_insert_eq. }
  unfold register_user. cbn zeta. now rewrite !Hrec.
Qed.

(** X5: a registration sets and deletes no cookie, whether it succeeds or
    fails. *)
Theorem register_user_sets_no_cookie (user_data : SUserRegister.t) (w : World S) :
  response (snd (register_user user_data w)) = response w.
Proof.
  destruct (select_user (session w) (EmailModel (SUserRegister.email user_data)))
    as [u |] eqn:He.
  { now rewrite (register_user_email_taken _ _ u He). }
  destruct (select_user (session w)
              (PhoneModel (SUserRegister.phone_number user_data))) as [u |] eqn:Hp.
  { now rewrite (register_user_phone_taken _ _ u He Hp). }
  rewrite (register_user_fresh _ _ He Hp).
  destruct (insert_user _ _); reflexivity.
Qed.

(** X6: a login that succeeds leaves on the response what a refresh for
    the user found by the email lookup leaves: both call [set_tokens] once,
    with the id of that user. *)
Theorem auth_user_issues_refresh_cookies
  (user_data : SUserAuth.t) (w : World S) (u : User.t) :
  select_user (session w) (EmailModel (SUserAuth.email user_data)) = Some u ->
  verify_password u (SUserAuth.password user_data) = true ->
  fst (auth_user user_data w) =
    Ok [("ok", JBool true); ("message", JStr "Авторизация успешна!")] /\
  response (snd (auth_user user_data w)) =
    response (snd (process_refresh_token u w)).
Proof.
  intros Hu Hv. rewrite auth_user_run. cbn zeta. rewrite Hu, Hv.
  unfold process_refresh_token, set_tokens, response_set_cookie. run.
  now rewrite <- app_assoc.
Qed.

(** X7: on DAOs where a row that [add] has inserted is found by its
    email, a registration with the email of a registration that succeeded
    just before raises [UserAlreadyExistsException] and leaves the session
    as the first one left it. *)
Theorem register_user_twice
  (first second : SUserRegister.t) (w : World S) (body : Body) :
  (forall s v s' e,
      insert_user s v = inr s' ->
      SUserAddDB.fields v !! "email" = Some e ->
      is_Some (select_user s' (EmailModel e))) ->
  fst (register_user first w) = Ok body ->
  SUserRegister.email second = SUserRegister.email first ->
  fst (register_user second (snd (register_user first w))) =
    Raise UserAlreadyExistsException /\
  session (snd (register_user second (snd (register_user first w)))) =
    session (snd (register_user first w)).
Proof.
  intros Hlaw Hok Hsame.
  destruct (register_user_ok_inv _ _ _ Hok) as (He & Hp & s' & Hins).
  assert (Hemail :
    SUserAddDB.fields
      (SUserAddDB.mk (delete "confirm_password" (SUserRegister.model_dump first)))
      !! "email" = Some (SUserRegister.email first)).
  { cbn. unfold SUserRegister.model_dump.
    rewrite lookup_delete_ne by discriminate. apply lookup_insert_eq. }
  destruct (Hlaw _ _ _ _ Hins Hemail) as [u Hu].
  rewrite (register_user_fresh _ _ He Hp), Hins. cbn [snd].
  rewrite <- Hsame in Hu.
  match goal with
  | |- context [register_user second ?w'] =>
      rewrite (register_user_email_taken second w' u Hu)
  end.
  split; reflexivity.
Qed.

End HandlerFacts.

(** The store in memory finds by its email a row it has inserted. *)
Lemma find_snoc_found {A : Type} (f : A -> bool) (l : list A) (x : A) :
  f x = true -> is_Some (List.find f (l ++ [x])).
Proof.
  intros Hx. induction l as [| y l IH]; cbn.
  - rewrite Hx. eauto.
  - destruct (f y); eauto.
Qed.

Lemma store_insert_user_found_by_email (s : Store) (v : SUserAddDB.t) (s' : Store)
  (e : string) :
  insert_user s v = inr s' ->
  SUserAddDB.fields v !! "email" = Some e ->
  is_Some (select_user s' (EmailModel e)).
Proof.
  cbn. unfold store_insert_user. intros Hins He.
  destruct (existsb _ _); [discriminate |].
  injection Hins as <-. cbn. apply find_snoc_found.
  cbn. unfold field. rewrite He. cbn. apply String.eqb_refl.
Qed.

Lemma register_user_other_errors_propagate_witness :
  fst (register_user carol_form (failing_world0 ValidationError)) =
    Raise ValidationError /\
  session (snd (register_user carol_form (failing_world0 ValidationError))) =
    mkFailing store0 ValidationError.
Proof.
  pose proof (register_user_other_errors_propagate carol_form
                (failing_world0 ValidationError) ValidationError
                eq_refl eq_refl eq_refl ltac:(discriminate))
    as (Hraise & Hsession & _).
  split; [exact Hraise | exact Hsession].
Defined.

Lemma addroles_add_errors_propagate_witness :
  fst (addroles (RoleAddModel.mk "editor") alice (failing_world0 IntegrityError)) =
    Raise IntegrityError.
Proof.
  exact (proj1 (addroles_add_errors_propagate (RoleAddModel.mk "editor") alice
                  (failing_world0 IntegrityError) IntegrityError eq_refl eq_refl)).
Defined.

Lemma auth_user_issues_refresh_cookies_witness :
  response (snd (auth_user alice_login world0)) =
    response (snd (process_refresh_token alice world0)) /\
  response (snd (auth_user alice_login world0)) =
    [set_cookie "user_access_token" (create_access_token 1 1000);
     set_cookie "user_refresh_token" (create_refresh_token 1 1000)].
Proof.
  pose proof (auth_user_issues_refresh_cookies alice_login world0 alice
                eq_refl eq_refl) as (_ & Hsame).
  split; [exact Hsame |]. rewrite Hsame. vm_compute. reflexivity.
Defined.

Lemma register_user_twice_witness :
  fst (register_user carol_form world0) =
    Ok [("message", JStr "Вы успешно зарегистрированы!")] /\
  fst (register_user carol_form (snd (register_user carol_form world0))) =
    Raise UserAlreadyExistsException.
Proof.
  assert (Hok : fst (register_user carol_form world0) =
                Ok [("message", JStr "Вы успешно зарегистрированы!")])
    by (vm_compute; reflexivity).
  split; [exact Hok |].
  exact (proj1 (register_user_twice carol_form carol_form world0 _
                  store_insert_user_found_by_email Hok eq_refl)).
Defined.
